(** * aws-rdsportal-frontend: the Vite configuration, embedded and verified

    The repository fragment is one file, [vite.config.ts]: an object literal
    handed to [defineConfig], with a plugin made by [vue()] and one computed
    path, [path.resolve(__dirname, '../aws-rdsportal-backend/app/frontend')].

    The development has these layers:
    - [Module path]: Node's POSIX [path] module, as far as the configuration
      uses it ([resolve], with [normalize] for comparison);
    - what the file reads of Node's [process], and the plugin factory
      [vue] of '@vitejs/plugin-vue', which reads it too;
    - the configuration itself ([UserConfig], [resolve]), translated field by
      field from the object literal;
    - the properties of the resolved configuration. *)
From Stdlib Require Import String Ascii List Bool ZArith Lia.
Import ListNotations.
Open Scope string_scope.

(** ** Outcomes of evaluating JavaScript that may throw *)

(** The one exception the modelled code can raise: [process.cwd()] throws
    (ENOENT from uv_cwd) when the working directory has been removed. *)
Inductive NodeError : Type :=
| ENOENT_uv_cwd.

Inductive Result (A : Type) : Type :=
| Ok (a : A)
| Throw (e : NodeError).
Arguments Ok {A} a.
Arguments Throw {A} e.

Definition bind {A B : Type} (r : Result A) (k : A -> Result B) : Result B :=
  match r with
  | Ok a => k a
  | Throw e => Throw e
  end.

Notation "x <- r ;; k" := (bind r (fun x => k))
  (at level 61, r at next level, right associativity).

(** ** Node's [path] module (POSIX flavour) *)

Module path.

Definition CHAR_FORWARD_SLASH : ascii := "/"%char.

Definition isPosixPathSeparator (code : ascii) : bool :=
  Ascii.eqb code CHAR_FORWARD_SLASH.

(** [p.charCodeAt(0) === CHAR_FORWARD_SLASH]; false on the empty string. *)
Definition isAbsolute (p : string) : bool :=
  match p with
  | EmptyString => false
  | String c _ => isPosixPathSeparator c
  end.

(** The pieces of [p] between separators, empty pieces included:
    ["/a//b/"] has the pieces [""; "a"; ""; "b"; ""]. *)
Fixpoint segments (p : string) : list string :=
  match p with
  | EmptyString => [EmptyString]
  | String c rest =>
      if isPosixPathSeparator c then EmptyString :: segments rest
      else match segments rest with
           | [] => [String c EmptyString]
           | seg :: more => String c seg :: more
           end
  end.

(** [segs.join('/')]. *)
Fixpoint join (segs : list string) : string :=
  match segs with
  | [] => EmptyString
  | [seg] => seg
  | seg :: more => seg ++ "/" ++ join more
  end.

(** One separator-terminated piece of [normalizeString]'s scan. [res] is
    the result so far, last piece first. An empty piece and ["."] leave it
    alone; [".."] drops the last piece, unless there is none or it is
    itself [".."], where [".."] is kept only if [allowAboveRoot]; any other
    piece is appended. *)
Definition normalizeSegment (allowAboveRoot : bool)
    (res : list string) (seg : string) : list string :=
  if (seg =? "") || (seg =? ".") then res
  else if seg =? ".." then
    match res with
    | [] => if allowAboveRoot then [".."] else []
    | last :: before =>
        if last =? ".." then (if allowAboveRoot then ".." :: res else res)
        else before
    end
  else seg :: res.

(** [normalizeString(path, allowAboveRoot, '/', isPosixPathSeparator)]:
    resolves ["."] and [".."] pieces and drops empty ones; the result has
    neither a leading nor a trailing separator. *)
Definition normalizeString (p : string) (allowAboveRoot : bool) : string :=
  join (rev (fold_left (normalizeSegment allowAboveRoot) (segments p) [])).

(** The loop of [path.resolve] over its arguments, last argument first:
    every non-empty argument is put in front of [resolvedPath], until one
    of them is absolute. Returns [(resolvedPath, resolvedAbsolute)]. *)
Fixpoint resolveArgs (argsFromLast : list string) (resolvedPath : string)
  : string * bool :=
  match argsFromLast with
  | [] => (resolvedPath, false)
  | p :: earlier =>
      if p =? "" then resolveArgs earlier resolvedPath
      else
        let resolvedPath' := p ++ "/" ++ resolvedPath in
        if isAbsolute p then (resolvedPath', true)
        else resolveArgs earlier resolvedPath'
  end.

(** [path.resolve(...args)]. [cwd] is what [process.cwd()] would return
    ([None]: it throws); it is only asked for when no argument is
    absolute. The file system is never consulted. *)
Definition resolve (cwd : option string) (args : list string)
  : Result string :=
  let '(resolvedPath, resolvedAbsolute) := resolveArgs (rev args) "" in
  if resolvedAbsolute then
    Ok ("/" ++ normalizeString resolvedPath false)
  else
    match cwd with
    | None => Throw ENOENT_uv_cwd
    | Some wd =>
        let '(resolvedPath, resolvedAbsolute) :=
          if wd =? "" then (resolvedPath, false)
          else (wd ++ "/" ++ resolvedPath, isAbsolute wd) in
        let res := normalizeString resolvedPath (negb resolvedAbsolute) in
        if resolvedAbsolute then Ok ("/" ++ res)
        else Ok (if res =? "" then "." else res)
    end.

(** Whether [p] ends in a separator. *)
Fixpoint trailingSeparator (p : string) : bool :=
  match p with
  | EmptyString => false
  | String c EmptyString => isPosixPathSeparator c
  | String _ rest => trailingSeparator rest
  end.

(** [path.normalize(p)]. *)
Definition normalize (p : string) : string :=
  if p =? "" then "."
  else
    let res := normalizeString p (negb (isAbsolute p)) in
    if res =? "" then
      (if isAbsolute p then "/"
       else if trailingSeparator p then "./" else ".")
    else
      (if isAbsolute p then "/" else "")
        ++ res ++ (if trailingSeparator p then "/" else "").

End path.


(** ** The invocation context *)

Inductive Command : Type :=
| CmdBuild
| CmdServe.

(** Everything around one load of the configuration file. The file sees
    [__dirname]; [vue()] and [path.resolve] see the working directory and
    the environment; the rest is there so that statements can quantify
    over it. *)
Record InvocationContext : Type := {
  __dirname : string;               (* directory of vite.config.ts *)
  processCwd : option string;       (* process.cwd(), None if it throws *)
  command : Command;                (* vite build / vite (serve) *)
  mode : string;                    (* --mode *)
  processEnv : list (string * string);  (* process.env *)
  existingDirs : list string        (* directories present on disk *)
}.

(** ** Node's [process] *)

(** [process.cwd()]. *)
Definition process_cwd (ctx : InvocationContext) : Result string :=
  match processCwd ctx with
  | Some wd => Ok wd
  | None => Throw ENOENT_uv_cwd
  end.

(** [process.env[name]]: the first entry of that name, [None] for
    [undefined]. *)
Fixpoint getenv (env : list (string * string)) (name : string)
  : option string :=
  match env with
  | [] => None
  | (key, value) :: more => if key =? name then Some value else getenv more name
  end.

(** [process.env.NODE_ENV === 'production']. *)
Definition nodeEnvIsProduction (ctx : InvocationContext) : bool :=
  match getenv (processEnv ctx) "NODE_ENV" with
  | Some value => value =? "production"
  | None => false
  end.

(** ** The configuration object *)

(** A plugin descriptor, as far as the configuration determines it: the
    module whose factory produced it, and the two options that the
    factory takes from the process, [root] and [isProduction]. *)
Inductive PluginDescriptor : Type :=
| PluginFrom (moduleSpecifier : string) (root : string) (isProduction : bool).

(** [import vue from '@vitejs/plugin-vue']; [vue()]. The factory builds
    its options with [isProduction: process.env.NODE_ENV === 'production']
    and [root: process.cwd()], so it throws when the working directory
    cannot be read. *)
Definition vue (ctx : InvocationContext) : Result PluginDescriptor :=
  let isProduction := nodeEnvIsProduction ctx in
  root <- process_cwd ctx ;;
  Ok (PluginFrom "@vitejs/plugin-vue" root isProduction).

(** [server.host] is [string | boolean] in Vite. *)
Inductive HostOption : Type :=
| HostBool (b : bool)
| HostName (name : string).

Record BuildOptions : Type := {
  outDir : string;
  emptyOutDir : bool
}.

Record ServerOptions : Type := {
  port : Z;
  host : HostOption
}.

Record UserConfig : Type := {
  plugins : list PluginDescriptor;
  build : BuildOptions;
  server : ServerOptions
}.

(** [defineConfig] only gives the literal its type. *)
Definition defineConfig (config : UserConfig) : UserConfig := config.

(** The module's default export, evaluated when the configuration file is
    loaded in context [ctx]: the properties of the literal are evaluated
    in order, [vue()] before [path.resolve]. *)
Definition resolve (ctx : InvocationContext) : Result UserConfig :=
  plugin <- vue ctx ;;
  dir <- path.resolve (processCwd ctx)
           [__dirname ctx; "../aws-rdsportal-backend/app/frontend"] ;;
  Ok (defineConfig {|
    plugins := [plugin];
    build := {|
      outDir := dir;
      emptyOutDir := true
    |};
    server := {|
      port := 8080;
      host := HostBool true
    |}
  |}).

(** ** The configuration as the specification names its parts *)

Definition outputDirectory (c : UserConfig) : string := outDir (build c).
Definition emptyOutputBeforeBuild (c : UserConfig) : bool :=
  emptyOutDir (build c).
Definition devServerPort (c : UserConfig) : Z := port (server c).

(** Vite binds to all interfaces for [host: true] (and for the explicit
    wildcard address), to loopback otherwise. *)
Definition devServerExposeOnNetwork (c : UserConfig) : bool :=
  match host (server c) with
  | HostBool b => b
  | HostName name => name =? "0.0.0.0"
  end.


(** ** Vocabulary for the statements *)

(** The fixed second argument of [path.resolve], and its pieces. *)
Definition relativeOutDir : string := "../aws-rdsportal-backend/app/frontend".
Definition assetPieces : list string :=
  ["aws-rdsportal-backend"; "app"; "frontend"].

(** No separator occurs in [s]. *)
Fixpoint noSeparator (s : string) : bool :=
  match s with
  | EmptyString => true
  | String c rest => negb (path.isPosixPathSeparator c) && noSeparator rest
  end.

(** A directory name as it occurs in a normalised path: not empty, not
    ["."], not [".."], and without separator. *)
Definition cleanSegment (s : string) : bool :=
  noSeparator s && negb (s =? "") && negb (s =? ".") && negb (s =? "..").

(** ["/a/b/c"] from [["a"; "b"; "c"]]; the empty string from [[]]. *)
Fixpoint ofSegments (segs : list string) : string :=
  match segs with
  | [] => EmptyString
  | seg :: more => "/" ++ seg ++ ofSegments more
  end.

(** The absolute path with the given directory names: the root for none. *)
Definition absolutePath (segs : list string) : string :=
  match segs with
  | [] => "/"
  | _ => ofSegments segs
  end.

(** The directory names of a path, empty pieces dropped. *)
Definition directoryNames (p : string) : list string :=
  filter (fun seg => negb (seg =? "")) (path.segments p).

Fixpoint isPrefixOf (l1 l2 : list string) : bool :=
  match l1, l2 with
  | [], _ => true
  | _ :: _, [] => false
  | x :: l1', y :: l2' => (x =? y) && isPrefixOf l1' l2'
  end.

(** [child] is [parent] or lies below it. *)
Definition isUnder (child parent : string) : bool :=
  isPrefixOf (directoryNames parent) (directoryNames child).

(** The configuration that the literal describes, for a given plugin and
    output directory. *)
Definition configWith (plugin : PluginDescriptor) (dir : string)
  : UserConfig := {|
  plugins := [plugin];
  build := {| outDir := dir; emptyOutDir := true |};
  server := {| port := 8080; host := HostBool true |}
|}.

(** The descriptor that [vue()] makes in a process with working directory
    [wd]. *)
Definition vueDescriptor (ctx : InvocationContext) (wd : string)
  : PluginDescriptor :=
  PluginFrom "@vitejs/plugin-vue" wd (nodeEnvIsProduction ctx).

(** A production build that loads the configuration file found in [dir]. *)
Definition contextAt (dir : string) (cwd : option string)
    (dirs : list string) : InvocationContext := {|
  __dirname := dir;
  processCwd := cwd;
  command := CmdBuild;
  mode := "production";
  processEnv := [("NODE_ENV", "production")];
  existingDirs := dirs
|}.

(** The end-to-end scenario of the specification. *)
Definition scenarioDir : string := "/home/user/project/aws-rdsportal-frontend".
Definition scenarioContext : InvocationContext :=
  contextAt scenarioDir (Some scenarioDir) [].

(** [p] is among the directories present on disk. *)
Definition dirExists (ctx : InvocationContext) (p : string) : bool :=
  existsb (String.eqb p) (existingDirs ctx).

(** The scenario's configuration file, loaded by a dev server that was
    started after a build, with overrides on offer in the environment. *)
Definition devServerContext : InvocationContext := {|
  __dirname := scenarioDir;
  processCwd := Some scenarioDir;
  command := CmdServe;
  mode := "development";
  processEnv := [("NODE_ENV", "development");
                 ("PORT", "3000"); ("HOST", "127.0.0.1")];
  existingDirs := [scenarioDir;
                   "/home/user/project/aws-rdsportal-backend/app/frontend"]
|}.

(** The scenario's configuration file, loaded from another working
    directory ([vite build --config <scenarioDir>/vite.config.ts]). *)
Definition elsewhereContext : InvocationContext :=
  contextAt scenarioDir (Some "/tmp") [].

(** The scenario's directory as working directory of a process that loads
    the configuration file of another checkout. *)
Definition otherCheckoutContext : InvocationContext :=
  contextAt "/srv/checkout/aws-rdsportal-frontend" (Some scenarioDir) [].

(** One configuration file, loaded from two working directories that
    differ in their prefix only. *)
Definition sharedConfigDir : string :=
  "/srv/checkout/project/aws-rdsportal-frontend".
Definition underXContext : InvocationContext :=
  contextAt sharedConfigDir (Some ("/x" ++ "/project/aws-rdsportal-frontend")) [].
Definition underYContext : InvocationContext :=
  contextAt sharedConfigDir (Some ("/y" ++ "/project/aws-rdsportal-frontend")) [].

(** A front-end project kept in the root directory, and one kept in a
    directory that carries the backend's name. *)
Definition rootContext : InvocationContext := contextAt "/" (Some "/") [].
Definition backendNamedContext : InvocationContext :=
  contextAt "/srv/aws-rdsportal-backend" (Some "/srv/aws-rdsportal-backend") [].

(** The scenario's configuration file, reached through a directory that
    is spelled with empty, ["."] and [".."] pieces. *)
Definition unnormalisedContext : InvocationContext :=
  contextAt "/home//user/./project/tmp/../aws-rdsportal-frontend/"
    (Some "/tmp") [].

(** A second front-end project beside the scenario's. *)
Definition siblingFrontendContext : InvocationContext :=
  contextAt "/home/user/project/admin-frontend"
    (Some "/home/user/project/admin-frontend") [].


(** The scenario's configuration file, loaded by a process whose working
    directory has been removed. *)
Definition unreadableCwdContext : InvocationContext :=
  contextAt scenarioDir None [].

(** ** The path model on the examples of Node's documentation *)

Example resolve_doc_relative :
  path.resolve (Some "/home/myself/node") ["/foo/bar"; "./baz"]
  = Ok "/foo/bar/baz".
Proof. reflexivity. Qed.

Example resolve_doc_absolute_last :
  path.resolve (Some "/home/myself/node") ["/foo/bar"; "/tmp/file/"]
  = Ok "/tmp/file".
Proof. reflexivity. Qed.

Example resolve_doc_uses_cwd :
  path.resolve (Some "/home/myself/node")
    ["wwwroot"; "static_files/png/"; "../gif/image.gif"]
  = Ok "/home/myself/node/wwwroot/static_files/gif/image.gif".
Proof. reflexivity. Qed.

Example resolve_stops_at_root :
  path.resolve (Some "/") ["/a"; "../../../b/./c//"] = Ok "/b/c".
Proof. reflexivity. Qed.

Example resolve_relative_without_cwd :
  path.resolve None ["wwwroot"; "../gif"] = Throw ENOENT_uv_cwd.
Proof. reflexivity. Qed.

Example normalize_doc :
  path.normalize "/foo/bar//baz/asdf/quux/.." = "/foo/bar/baz/asdf".
Proof. reflexivity. Qed.

Example normalize_relative_above :
  path.normalize "a/../../b/" = "../b/".
Proof. reflexivity. Qed.

(** ** Strings and lists *)

Lemma append_assoc (a b c : string) : (a ++ b) ++ c = a ++ (b ++ c).
Proof.
  induction a as [|ch a IH]; simpl; [reflexivity | now rewrite IH].
Qed.

Lemma append_empty_r (a : string) : a ++ "" = a.
Proof.
  induction a as [|ch a IH]; simpl; [reflexivity | now rewrite IH].
Qed.

Lemma append_nonempty_r (a b : string) : b <> "" -> a ++ b <> "".
Proof.
  destruct a; simpl; [trivial | discriminate].
Qed.

Module PathFacts.
Import path.

Lemma segments_nonempty (p : string) : segments p <> [].
Proof.
  destruct p as [|c p]; simpl; [discriminate |].
  destruct (isPosixPathSeparator c); [discriminate |].
  destruct (segments p); discriminate.
Qed.

(** Splitting commutes with concatenation at a separator. *)
Lemma segments_app_sep (a b : string) :
  segments (a ++ String "/" b) = (segments a ++ segments b)%list.
Proof.
  induction a as [|c a IH]; simpl; [reflexivity |].
  destruct (isPosixPathSeparator c).
  - now rewrite IH.
  - rewrite IH.
    destruct (segments a) as [|seg more] eqn:E.
    + now apply segments_nonempty in E.
    + reflexivity.
Qed.

Lemma segments_noSeparator (s : string) :
  noSeparator s = true -> segments s = [s].
Proof.
  induction s as [|c s IH]; simpl; [reflexivity |].
  intros H. apply andb_true_iff in H as [Hc Hs].
  apply negb_true_iff in Hc. rewrite Hc, (IH Hs). reflexivity.
Qed.

Lemma cleanSegment_noSeparator (s : string) :
  cleanSegment s = true -> noSeparator s = true.
Proof.
  unfold cleanSegment. intros H.
  repeat (apply andb_true_iff in H as [H _]). exact H.
Qed.

Lemma cleanSegment_inv (s : string) :
  cleanSegment s = true -> s <> "" /\ s <> "." /\ s <> "..".
Proof.
  unfold cleanSegment. intros H.
  apply andb_true_iff in H as [H H3].
  apply andb_true_iff in H as [H H2].
  apply andb_true_iff in H as [_ H1].
  apply negb_true_iff in H1, H2, H3.
  now rewrite String.eqb_neq in H1, H2, H3.
Qed.

(** A name followed by a rendered list of names splits into that list. *)
Lemma segments_name_ofSegments (s : string) (segs : list string) :
  noSeparator s = true ->
  forallb cleanSegment segs = true ->
  segments (s ++ ofSegments segs) = s :: segs.
Proof.
  revert s. induction segs as [|t segs IH]; intros s Hs Hsegs; simpl.
  - rewrite append_empty_r. now apply segments_noSeparator.
  - simpl in Hsegs. apply andb_true_iff in Hsegs as [Ht Hsegs].
    change ("/" ++ t ++ ofSegments segs)
      with (String "/" (t ++ ofSegments segs)).
    rewrite segments_app_sep, (segments_noSeparator s Hs).
    rewrite IH; auto using cleanSegment_noSeparator.
Qed.

Lemma segments_ofSegments (segs : list string) :
  forallb cleanSegment segs = true ->
  segments (ofSegments segs) = match segs with [] => [""] | _ => "" :: segs end.
Proof.
  destruct segs as [|t segs]; [reflexivity |].
  intros H. simpl in H. apply andb_true_iff in H as [Ht Hsegs].
  change (ofSegments (t :: segs)) with (String "/" (t ++ ofSegments segs)).
  change (String "/" (t ++ ofSegments segs))
    with ("" ++ String "/" (t ++ ofSegments segs)).
  rewrite segments_app_sep.
  rewrite segments_name_ofSegments; auto using cleanSegment_noSeparator.
Qed.

Lemma segments_absolutePath (segs : list string) :
  forallb cleanSegment segs = true ->
  exists pad, segments (absolutePath segs) = ("" :: pad ++ segs)%list
              /\ (pad = [] \/ pad = [""]).
Proof.
  intros H. destruct segs as [|t segs].
  - exists [""]. split; [reflexivity | now right].
  - exists []. split; [| now left].
    unfold absolutePath. now rewrite segments_ofSegments.
Qed.

(** *** Joining *)

Lemma join_cons_cons (x y : string) (l : list string) :
  join (x :: y :: l) = x ++ "/" ++ join (y :: l).
Proof. reflexivity. Qed.

Lemma join_ofSegments (l : list string) :
  l <> [] -> "/" ++ join l = ofSegments l.
Proof.
  induction l as [|x l IH]; [congruence | intros _].
  destruct l as [|y l].
  - simpl. now rewrite append_empty_r.
  - rewrite join_cons_cons.
    change (ofSegments (x :: y :: l)) with ("/" ++ x ++ ofSegments (y :: l)).
    rewrite <- IH by discriminate. reflexivity.
Qed.

Lemma join_snoc_nonempty (l : list string) (x : string) :
  x <> "" -> join (l ++ [x])%list <> "".
Proof.
  intros Hx. induction l as [|y l IH]; simpl; [exact Hx |].
  destruct (l ++ [x])%list as [|z r] eqn:E.
  - now destruct l.
  - apply append_nonempty_r. discriminate.
Qed.

(** *** Normalising *)

Lemma normalizeSegment_clean (allow : bool) (res : list string) (seg : string) :
  cleanSegment seg = true -> normalizeSegment allow res seg = seg :: res.
Proof.
  intros H. apply cleanSegment_inv in H as (H1 & H2 & H3).
  unfold normalizeSegment.
  apply String.eqb_neq in H1, H2, H3. now rewrite H1, H2, H3.
Qed.

Lemma normalize_clean_segments (allow : bool) (segs res : list string) :
  forallb cleanSegment segs = true ->
  fold_left (normalizeSegment allow) segs res = (rev segs ++ res)%list.
Proof.
  revert res. induction segs as [|seg segs IH]; intros res H; simpl.
  - reflexivity.
  - simpl in H. apply andb_true_iff in H as [Hseg Hsegs].
    rewrite (normalizeSegment_clean _ _ _ Hseg), (IH _ Hsegs).
    now rewrite <- app_assoc.
Qed.

(** [".."] after clean names removes the last of them, and is dropped at
    the root. *)
Lemma normalizeSegment_dotdot_clean (segs : list string) :
  forallb cleanSegment segs = true ->
  normalizeSegment false (rev segs) ".." = rev (removelast segs).
Proof.
  intros H. destruct segs as [|s segs] using rev_ind; [reflexivity |].
  rewrite removelast_last, rev_unit.
  rewrite forallb_app in H. apply andb_true_iff in H as [_ H].
  simpl in H. rewrite andb_true_r in H.
  apply cleanSegment_inv in H as (_ & _ & H3).
  unfold normalizeSegment. simpl.
  apply String.eqb_neq in H3. now rewrite H3.
Qed.

(** The pieces scanned after the first argument of [path.resolve]. *)
Lemma segments_relativeOutDir :
  segments (relativeOutDir ++ "/") = (".." :: assetPieces ++ [""])%list.
Proof. reflexivity. Qed.

(** The result of the scan over any path followed by the relative part:
    whatever the path left, minus what [".."] removes, plus the three
    asset pieces. *)
Lemma normalize_with_relativeOutDir (dir : string) (allow : bool) :
  fold_left (normalizeSegment allow)
    (segments (dir ++ "/" ++ relativeOutDir ++ "/")) []
  = (rev assetPieces
     ++ normalizeSegment allow
          (fold_left (normalizeSegment allow) (segments dir) []) "..")%list.
Proof.
  change (dir ++ "/" ++ relativeOutDir ++ "/")
    with (dir ++ String "/" (relativeOutDir ++ "/")).
  rewrite segments_app_sep, segments_relativeOutDir, fold_left_app.
  reflexivity.
Qed.

Lemma normalizeString_trailing_separator (p : string) (allow : bool) :
  normalizeString (p ++ "/") allow = normalizeString p allow.
Proof.
  unfold normalizeString.
  change (p ++ "/") with (p ++ String "/" "").
  rewrite segments_app_sep, fold_left_app. reflexivity.
Qed.

Lemma normalizeString_relativeOutDir_nonempty (dir : string) (allow : bool) :
  normalizeString (dir ++ "/" ++ relativeOutDir ++ "/") allow <> "".
Proof.
  unfold normalizeString. rewrite normalize_with_relativeOutDir.
  rewrite rev_app_distr, rev_involutive.
  unfold assetPieces.
  change ["aws-rdsportal-backend"; "app"; "frontend"]
    with (["aws-rdsportal-backend"; "app"] ++ ["frontend"])%list.
  rewrite app_assoc. apply join_snoc_nonempty. discriminate.
Qed.

(** *** Resolving *)

Lemma isAbsolute_nonempty (p : string) : isAbsolute p = true -> p <> "".
Proof. destruct p; [discriminate | discriminate]. Qed.

Lemma isAbsolute_app (p q : string) :
  isAbsolute p = true -> isAbsolute (p ++ q) = true.
Proof. destruct p; [discriminate | trivial]. Qed.

Lemma trailingSeparator_app (p q : string) :
  q <> "" -> trailingSeparator (p ++ q) = trailingSeparator q.
Proof.
  intros Hq. induction p as [|c p IH]; [reflexivity |].
  simpl. destruct (p ++ q) eqn:E.
  - destruct p; simpl in E; [congruence | discriminate].
  - exact IH.
Qed.

(** With an absolute first argument the working directory is not read and
    nothing throws. *)
Lemma resolve_absolute (cwd : option string) (dir : string) :
  isAbsolute dir = true ->
  resolve cwd [dir; relativeOutDir]
  = Ok ("/" ++ normalizeString (dir ++ "/" ++ relativeOutDir ++ "/") false).
Proof.
  intros H. unfold resolve. simpl rev. unfold resolveArgs.
  change (relativeOutDir =? "") with false. cbv iota.
  change (isAbsolute relativeOutDir) with false. cbv iota zeta.
  pose proof (isAbsolute_nonempty _ H) as Hne.
  apply String.eqb_neq in Hne. rewrite Hne, H.
  reflexivity.
Qed.

(** For a normalised first argument the result is its parent directory
    followed by the asset pieces. *)
Lemma resolve_clean (cwd : option string) (segs : list string) :
  forallb cleanSegment segs = true ->
  resolve cwd [absolutePath segs; relativeOutDir]
  = Ok (ofSegments (removelast segs ++ assetPieces)).
Proof.
  intros H.
  assert (Habs : isAbsolute (absolutePath segs) = true)
    by (destruct segs; reflexivity).
  rewrite (resolve_absolute _ _ Habs). f_equal.
  unfold normalizeString. rewrite normalize_with_relativeOutDir.
  destruct (segments_absolutePath segs H) as (pad & -> & Hpad).
  assert (Hscan : fold_left (normalizeSegment false) ("" :: pad ++ segs) []
                  = rev segs).
  { simpl. destruct Hpad as [-> | ->]; simpl;
      rewrite (normalize_clean_segments _ _ _ H); apply app_nil_r. }
  rewrite Hscan, (normalizeSegment_dotdot_clean _ H).
  rewrite <- rev_app_distr, rev_involutive.
  apply join_ofSegments. unfold assetPieces.
  destruct (removelast segs); discriminate.
Qed.

(** [path.resolve(dir, rel)] and [path.normalize(dir + '/' + rel)] agree
    for an absolute [dir]. *)
Lemma normalize_absolute (dir : string) :
  isAbsolute dir = true ->
  normalize (dir ++ "/" ++ relativeOutDir)
  = "/" ++ normalizeString (dir ++ "/" ++ relativeOutDir ++ "/") false.
Proof.
  intros H. unfold normalize.
  assert (Hne : dir ++ "/" ++ relativeOutDir <> "")
    by (apply append_nonempty_r; discriminate).
  apply String.eqb_neq in Hne. rewrite Hne.
  rewrite (isAbsolute_app _ _ H). simpl negb.
  rewrite trailingSeparator_app by discriminate.
  change (trailingSeparator ("/" ++ relativeOutDir)) with false.
  assert (Hsame : normalizeString (dir ++ "/" ++ relativeOutDir) false
                  = normalizeString (dir ++ "/" ++ relativeOutDir ++ "/") false).
  { rewrite <- (normalizeString_trailing_separator (dir ++ _)).
    now rewrite !append_assoc. }
  rewrite Hsame.
  pose proof (normalizeString_relativeOutDir_nonempty dir false) as Hres.
  apply String.eqb_neq in Hres. rewrite Hres.
  now rewrite append_empty_r.
Qed.

(** *** Directory names and containment *)

Lemma ofSegments_app (l1 l2 : list string) :
  ofSegments (l1 ++ l2) = ofSegments l1 ++ ofSegments l2.
Proof.
  induction l1 as [|x l1 IH]; [reflexivity |].
  simpl. rewrite IH. f_equal. now rewrite append_assoc.
Qed.

Lemma filter_clean (l : list string) :
  forallb cleanSegment l = true ->
  filter (fun seg => negb (seg =? "")) l = l.
Proof.
  induction l as [|x l IH]; [reflexivity |].
  simpl. intros H. apply andb_true_iff in H as [Hx Hl].
  apply cleanSegment_inv in Hx as (Hx & _).
  apply String.eqb_neq in Hx. rewrite Hx. simpl. now rewrite IH.
Qed.

Lemma directoryNames_ofSegments (l : list string) :
  forallb cleanSegment l = true -> directoryNames (ofSegments l) = l.
Proof.
  intros H. unfold directoryNames. rewrite (segments_ofSegments _ H).
  destruct l as [|x l]; [reflexivity |].
  exact (filter_clean (x :: l) H).
Qed.

Lemma isPrefixOf_app (l a b : list string) :
  isPrefixOf (l ++ a) (l ++ b) = isPrefixOf a b.
Proof.
  induction l as [|x l IH]; [reflexivity |].
  simpl. now rewrite String.eqb_refl.
Qed.

Lemma assetPieces_clean : forallb cleanSegment assetPieces = true.
Proof. reflexivity. Qed.

End PathFacts.

(** ** Further facts about normalised paths *)

Module OutDirFacts.
Import path.

Lemma segments_noSeparator_all (p : string) :
  forallb noSeparator (segments p) = true.
Proof.
  induction p as [|c p IH]; [reflexivity |].
  simpl. destruct (isPosixPathSeparator c) eqn:Hc; [exact IH |].
  destruct (segments p) as [|seg more]; simpl in *.
  - now rewrite Hc.
  - now rewrite Hc.
Qed.

Lemma forallb_rev {A : Type} (f : A -> bool) (l : list A) :
  forallb f (rev l) = forallb f l.
Proof.
  induction l as [|x l IH]; [reflexivity |].
  simpl. rewrite forallb_app, IH. simpl.
  now rewrite andb_true_r, andb_comm.
Qed.

(** Below the root the scan keeps directory names only. *)
Lemma normalizeSegment_keeps_clean (res : list string) (seg : string) :
  forallb cleanSegment res = true ->
  noSeparator seg = true ->
  forallb cleanSegment (normalizeSegment false res seg) = true.
Proof.
  intros Hres Hseg. unfold normalizeSegment.
  destruct (seg =? "") eqn:E1; [exact Hres |].
  destruct (seg =? ".") eqn:E2; [exact Hres |]. simpl orb. cbv iota.
  destruct (seg =? "..") eqn:E3.
  - destruct res as [|last before]; [reflexivity |].
    destruct (last =? ".."); [exact Hres |].
    simpl in Hres. now apply andb_true_iff in Hres.
  - simpl. rewrite Hres, andb_true_r.
    unfold cleanSegment. now rewrite Hseg, E1, E2, E3.
Qed.

Lemma normalize_keeps_clean (segs res : list string) :
  forallb noSeparator segs = true ->
  forallb cleanSegment res = true ->
  forallb cleanSegment (fold_left (normalizeSegment false) segs res) = true.
Proof.
  revert res. induction segs as [|seg segs IH]; intros res Hsegs Hres.
  - exact Hres.
  - simpl in *. apply andb_true_iff in Hsegs as [Hseg Hsegs].
    apply IH; [exact Hsegs |]. now apply normalizeSegment_keeps_clean.
Qed.

(** What [path.resolve] returns for an absolute first argument, spelled
    in any way: directory names, then the asset pieces. *)
Lemma resolve_absolute_names (cwd : option string) (dir : string) :
  isAbsolute dir = true ->
  exists names,
    forallb cleanSegment names = true
    /\ resolve cwd [dir; relativeOutDir]
       = Ok (ofSegments (names ++ assetPieces)).
Proof.
  intros H. rewrite (PathFacts.resolve_absolute _ _ H).
  unfold normalizeString. rewrite PathFacts.normalize_with_relativeOutDir.
  set (kept := normalizeSegment false
                 (fold_left (normalizeSegment false) (segments dir) []) "..").
  exists (rev kept). split.
  - rewrite forallb_rev. unfold kept.
    apply normalizeSegment_keeps_clean; [| reflexivity].
    apply normalize_keeps_clean; [apply segments_noSeparator_all | reflexivity].
  - f_equal. rewrite rev_app_distr, rev_involutive.
    apply PathFacts.join_ofSegments.
    unfold assetPieces. destruct (rev kept); discriminate.
Qed.

Lemma ofSegments_absolute (names : list string) :
  names <> [] ->
  isAbsolute (ofSegments names) = true /\ ofSegments names <> "".
Proof.
  destruct names; [congruence |]. intros _. split; [reflexivity | discriminate].
Qed.

Lemma normalizeString_ofSegments (names : list string) :
  forallb cleanSegment names = true ->
  normalizeString (ofSegments names) false = join names.
Proof.
  intros H. unfold normalizeString.
  rewrite (PathFacts.segments_ofSegments _ H).
  destruct names as [|x names]; [reflexivity |].
  change (fold_left (normalizeSegment false) ("" :: x :: names) [])
    with (fold_left (normalizeSegment false) (x :: names) []).
  rewrite (PathFacts.normalize_clean_segments _ _ _ H).
  now rewrite app_nil_r, rev_involutive.
Qed.

(** A normalised absolute path resolves to itself, whatever precedes it
    in the argument list and whatever the working directory. *)
Lemma resolve_normalised_last
    (cwd : option string) (bases names : list string) :
  forallb cleanSegment names = true ->
  names <> [] ->
  resolve cwd (bases ++ [ofSegments names]) = Ok (ofSegments names).
Proof.
  intros H Hne. destruct (ofSegments_absolute _ Hne) as [Habs Hnonempty].
  unfold resolve. rewrite rev_unit. simpl resolveArgs.
  apply String.eqb_neq in Hnonempty. rewrite Hnonempty, Habs.
  f_equal.
  change (ofSegments names ++ "/" ++ "") with (ofSegments names ++ "/").
  rewrite PathFacts.normalizeString_trailing_separator.
  rewrite (normalizeString_ofSegments _ H).
  now apply PathFacts.join_ofSegments.
Qed.

Lemma noSeparator_trailing (s : string) :
  noSeparator s = true -> trailingSeparator s = false.
Proof.
  induction s as [|c s IH]; [reflexivity |].
  simpl. intros H. apply andb_true_iff in H as [Hc Hs].
  apply negb_true_iff in Hc. destruct s; [exact Hc | exact (IH Hs)].
Qed.

Lemma ofSegments_no_trailing_separator (names : list string) :
  forallb cleanSegment names = true ->
  trailingSeparator (ofSegments names) = false.
Proof.
  destruct names as [|x names] using rev_ind; [reflexivity |].
  intros H. rewrite forallb_app in H. apply andb_true_iff in H as [_ H].
  simpl in H. rewrite andb_true_r in H.
  pose proof (PathFacts.cleanSegment_inv _ H) as (Hx & _).
  rewrite PathFacts.ofSegments_app.
  change (ofSegments [x]) with ("/" ++ x ++ "").
  rewrite append_empty_r.
  rewrite PathFacts.trailingSeparator_app by discriminate.
  rewrite PathFacts.trailingSeparator_app by exact Hx.
  apply noSeparator_trailing. now apply PathFacts.cleanSegment_noSeparator.
Qed.

Lemma join_nonempty (names : list string) :
  forallb cleanSegment names = true -> names <> [] -> join names <> "".
Proof.
  destruct names as [|x names]; [congruence |]. intros H _.
  simpl in H. apply andb_true_iff in H as [H _].
  apply PathFacts.cleanSegment_inv in H as (Hx & _).
  destruct x; [congruence |]. destruct names; discriminate.
Qed.

(** A normalised absolute path is a fixed point of [path.normalize]. *)
Lemma normalize_normalised (names : list string) :
  forallb cleanSegment names = true ->
  names <> [] ->
  normalize (ofSegments names) = ofSegments names.
Proof.
  intros H Hne. destruct (ofSegments_absolute _ Hne) as [Habs Hnonempty].
  unfold normalize.
  apply String.eqb_neq in Hnonempty. rewrite Hnonempty, Habs. simpl negb.
  rewrite (normalizeString_ofSegments _ H).
  pose proof (join_nonempty _ H Hne) as Hjoin.
  apply String.eqb_neq in Hjoin. rewrite Hjoin.
  rewrite (ofSegments_no_trailing_separator _ H), append_empty_r.
  now apply PathFacts.join_ofSegments.
Qed.

(** *** Containment *)

Lemma directoryNames_absolutePath (segs : list string) :
  forallb cleanSegment segs = true ->
  directoryNames (absolutePath segs) = segs.
Proof.
  destruct segs as [|x segs]; [reflexivity |].
  exact (PathFacts.directoryNames_ofSegments (x :: segs)).
Qed.

Lemma isPrefixOf_length (l1 l2 : list string) :
  isPrefixOf l1 l2 = true -> length l1 <= length l2.
Proof.
  revert l2. induction l1 as [|x l1 IH]; intros l2 H; simpl; [lia |].
  destruct l2 as [|y l2]; [discriminate |].
  simpl in H. apply andb_true_iff in H as [_ H].
  specialize (IH _ H). simpl. lia.
Qed.

Lemma isPrefixOf_refl (l : list string) : isPrefixOf l l = true.
Proof.
  induction l as [|x l IH]; [reflexivity |].
  simpl. now rewrite String.eqb_refl.
Qed.

Lemma removelast_clean (segs : list string) :
  forallb cleanSegment segs = true ->
  forallb cleanSegment (removelast segs) = true.
Proof.
  destruct segs as [|x segs] using rev_ind; [trivial |].
  rewrite removelast_last, forallb_app. intros H.
  now apply andb_true_iff in H.
Qed.

Lemma removelast_length_succ (segs : list string) :
  length segs <= S (length (removelast segs)).
Proof.
  destruct segs as [|x segs] using rev_ind; [simpl; lia |].
  rewrite removelast_last, length_app. simpl. lia.
Qed.

End OutDirFacts.

(** ** The configuration that [resolve] returns *)

(** With a readable working directory [path.resolve] returns, whatever
    its arguments. *)
Lemma path_resolve_readable (wd : string) (args : list string) :
  exists out, path.resolve (Some wd) args = Ok out.
Proof.
  unfold path.resolve.
  destruct (path.resolveArgs (rev args) "") as [resolvedPath [|]].
  - eexists. reflexivity.
  - destruct (wd =? ""); [eexists; reflexivity |].
    destruct (path.isAbsolute wd); eexists; reflexivity.
Qed.

Lemma resolve_unreadable (ctx : InvocationContext) :
  processCwd ctx = None -> resolve ctx = Throw ENOENT_uv_cwd.
Proof.
  intros H. unfold resolve, vue, process_cwd. now rewrite H.
Qed.

Lemma resolve_readable (ctx : InvocationContext) (wd : string) :
  processCwd ctx = Some wd ->
  resolve ctx
  = (dir <- path.resolve (Some wd) [__dirname ctx; relativeOutDir] ;;
     Ok (configWith (vueDescriptor ctx wd) dir)).
Proof.
  intros H. unfold resolve, vue, process_cwd. now rewrite H.
Qed.

Lemma resolve_inv (ctx : InvocationContext) (cfg : UserConfig) :
  resolve ctx = Ok cfg ->
  exists wd dir,
    processCwd ctx = Some wd
    /\ path.resolve (Some wd) [__dirname ctx; relativeOutDir] = Ok dir
    /\ cfg = configWith (vueDescriptor ctx wd) dir.
Proof.
  intros H. destruct (processCwd ctx) as [wd |] eqn:Hcwd.
  - rewrite (resolve_readable ctx wd Hcwd) in H.
    destruct (path.resolve _ _) as [dir | e] eqn:Hdir; simpl in H;
      [| discriminate].
    injection H as <-. now exists wd, dir.
  - rewrite (resolve_unreadable ctx Hcwd) in H. discriminate.
Qed.

Lemma resolve_absolute_dirname (ctx : InvocationContext) (wd : string) :
  processCwd ctx = Some wd ->
  path.isAbsolute (__dirname ctx) = true ->
  resolve ctx
  = Ok (configWith (vueDescriptor ctx wd)
          ("/" ++ path.normalizeString
                    (__dirname ctx ++ "/" ++ relativeOutDir ++ "/") false)).
Proof.
  intros Hcwd H. rewrite (resolve_readable ctx wd Hcwd).
  now rewrite (PathFacts.resolve_absolute _ _ H).
Qed.

Lemma resolve_clean_dirname
    (ctx : InvocationContext) (wd : string) (segs : list string) :
  processCwd ctx = Some wd ->
  forallb cleanSegment segs = true ->
  __dirname ctx = absolutePath segs ->
  resolve ctx
  = Ok (configWith (vueDescriptor ctx wd)
          (ofSegments (removelast segs ++ assetPieces))).
Proof.
  intros Hcwd H Hdir. rewrite (resolve_readable ctx wd Hcwd), Hdir.
  now rewrite (PathFacts.resolve_clean _ _ H).
Qed.

Lemma resolve_names_dirname (ctx : InvocationContext) (wd : string) :
  processCwd ctx = Some wd ->
  path.isAbsolute (__dirname ctx) = true ->
  exists names,
    forallb cleanSegment names = true
    /\ resolve ctx
       = Ok (configWith (vueDescriptor ctx wd)
               (ofSegments (names ++ assetPieces))).
Proof.
  intros Hcwd H.
  destruct (OutDirFacts.resolve_absolute_names (Some wd) _ H)
    as (names & Hclean & Hres).
  exists names. split; [exact Hclean |].
  now rewrite (resolve_readable ctx wd Hcwd), Hres.
Qed.

Lemma names_with_assets_clean (names : list string) :
  forallb cleanSegment names = true ->
  forallb cleanSegment (names ++ assetPieces) = true
  /\ (names ++ assetPieces <> [])%list.
Proof.
  intros H. split.
  - rewrite forallb_app, H. reflexivity.
  - unfold assetPieces. destruct names; discriminate.
Qed.

(** ** Properties of the resolved configuration *)

(** C1 (as the code has it). For every absolute directory D of the
    configuration file ([__dirname], not the working directory) and every
    readable working directory, [resolve] returns a configuration whose
    [outputDirectory] is the normalised absolute path of
    D/../aws-rdsportal-backend/app/frontend; when D is
    /home/user/project/aws-rdsportal-frontend it is exactly
    /home/user/project/aws-rdsportal-backend/app/frontend. *)
Theorem C1_outputDirectory_of_config_directory
    (ctx : InvocationContext) (wd : string) :
  processCwd ctx = Some wd ->
  path.isAbsolute (__dirname ctx) = true ->
  exists cfg,
    resolve ctx = Ok cfg
    /\ outputDirectory cfg
       = path.normalize (__dirname ctx ++ "/" ++ relativeOutDir)
    /\ (__dirname ctx = scenarioDir ->
        outputDirectory cfg
        = "/home/user/project/aws-rdsportal-backend/app/frontend").
Proof.
  intros Hcwd H. rewrite (resolve_absolute_dirname ctx wd Hcwd H).
  eexists. split; [reflexivity |]. unfold outputDirectory. simpl.
  split.
  - symmetry. exact (PathFacts.normalize_absolute _ H).
  - intros ->. reflexivity.
Qed.

Lemma C1_scenario_witness :
  processCwd scenarioContext = Some scenarioDir
  /\ path.isAbsolute (__dirname scenarioContext) = true
  /\ exists cfg,
       resolve scenarioContext = Ok cfg
       /\ outputDirectory cfg
          = "/home/user/project/aws-rdsportal-backend/app/frontend".
Proof.
  split; [reflexivity |]. split; [reflexivity |].
  destruct (C1_outputDirectory_of_config_directory
              scenarioContext scenarioDir eq_refl eq_refl)
    as (cfg & Hcfg & _ & Hout).
  exists cfg. split; [exact Hcfg | exact (Hout eq_refl)].
Defined.

(** C1 read with the process working directory fails: loaded from /tmp,
    the scenario's configuration file still yields the scenario's output
    directory, not the normalised /tmp/../aws-rdsportal-backend/app/frontend;
    and a process whose working directory is the scenario's, loading the
    file of another checkout, does not yield the scenario's output
    directory. *)
Lemma C1_working_directory_counterexample :
  (processCwd elsewhereContext = Some "/tmp"
   /\ exists cfg,
        resolve elsewhereContext = Ok cfg
        /\ outputDirectory cfg
           = "/home/user/project/aws-rdsportal-backend/app/frontend"
        /\ path.normalize ("/tmp" ++ "/" ++ relativeOutDir)
           = "/aws-rdsportal-backend/app/frontend"
        /\ outputDirectory cfg
           <> path.normalize ("/tmp" ++ "/" ++ relativeOutDir))
  /\ (processCwd otherCheckoutContext = Some scenarioDir
      /\ exists cfg,
           resolve otherCheckoutContext = Ok cfg
           /\ outputDirectory cfg
              = "/srv/checkout/aws-rdsportal-backend/app/frontend"
           /\ outputDirectory cfg
              <> "/home/user/project/aws-rdsportal-backend/app/frontend").
Proof.
  split; (split; [reflexivity |]); eexists; (split; [reflexivity |]).
  - split; [reflexivity |]. split; [reflexivity | discriminate].
  - split; [reflexivity | discriminate].
Qed.

(** C2 (as the code has it). Loading the configuration fails exactly when
    the working directory cannot be read ([vue()] calls [process.cwd()]),
    and never on account of the output path: for an absolute directory of
    the configuration file, whatever its pieces and whatever exists on
    disk, [path.resolve] returns an absolute path and throws nothing. *)
Theorem C2_fails_exactly_on_unreadable_cwd (ctx : InvocationContext) :
  ((exists e, resolve ctx = Throw e) <-> processCwd ctx = None)
  /\ (path.isAbsolute (__dirname ctx) = true ->
      forall cwd,
      exists out,
        path.resolve cwd [__dirname ctx; relativeOutDir] = Ok out
        /\ path.isAbsolute out = true).
Proof.
  split.
  - destruct (processCwd ctx) as [wd |] eqn:Hcwd.
    + rewrite (resolve_readable ctx wd Hcwd).
      destruct (path_resolve_readable wd [__dirname ctx; relativeOutDir])
        as (out & ->).
      split; [intros [e He]; discriminate He | discriminate].
    + rewrite (resolve_unreadable ctx Hcwd). split; [reflexivity |].
      intros _. now exists ENOENT_uv_cwd.
  - intros H cwd. rewrite (PathFacts.resolve_absolute cwd _ H).
    eexists. split; reflexivity.
Qed.

Lemma C2_both_outcomes_witness :
  (processCwd unreadableCwdContext = None
   /\ exists e, resolve unreadableCwdContext = Throw e)
  /\ (processCwd scenarioContext <> None
      /\ ~ exists e, resolve scenarioContext = Throw e)
  /\ exists out,
       path.resolve None [__dirname unreadableCwdContext; relativeOutDir]
       = Ok out
       /\ path.isAbsolute out = true.
Proof.
  destruct (C2_fails_exactly_on_unreadable_cwd unreadableCwdContext)
    as [[_ Hthrows] Hpath].
  destruct (C2_fails_exactly_on_unreadable_cwd scenarioContext)
    as [[Honly _] _].
  split; [split; [reflexivity | exact (Hthrows eq_refl)] |].
  split.
  - split; [discriminate |]. intros H. apply Honly in H. discriminate H.
  - exact (Hpath eq_refl None).
Defined.

(** C2 as stated fails: in the scenario neither the sibling project nor
    the output directory exists on disk, and [resolve] returns a
    configuration all the same. *)
Lemma C2_missing_sibling_counterexample :
  dirExists scenarioContext "/home/user/project/aws-rdsportal-backend" = false
  /\ dirExists scenarioContext
       "/home/user/project/aws-rdsportal-backend/app/frontend" = false
  /\ exists cfg,
       resolve scenarioContext = Ok cfg
       /\ outputDirectory cfg
          = "/home/user/project/aws-rdsportal-backend/app/frontend"
       /\ forall e, resolve scenarioContext <> Throw e.
Proof.
  split; [reflexivity |]. split; [reflexivity |].
  eexists. split; [reflexivity |]. split; [reflexivity | discriminate].
Qed.

(** C3. Every configuration that [resolve] returns has [devServerPort]
    8080 and [devServerExposeOnNetwork] true, whatever the command, the
    mode, the environment, the directories and the disk. *)
Theorem C3_dev_server_port_and_exposure
    (ctx : InvocationContext) (cfg : UserConfig) :
  resolve ctx = Ok cfg ->
  devServerPort cfg = 8080%Z /\ devServerExposeOnNetwork cfg = true.
Proof.
  intros H. apply resolve_inv in H as (wd & dir & _ & _ & ->).
  split; reflexivity.
Qed.

Lemma C3_dev_server_witness :
  exists cfg,
    resolve devServerContext = Ok cfg
    /\ devServerPort cfg = 8080%Z /\ devServerExposeOnNetwork cfg = true.
Proof.
  eexists. split; [reflexivity |].
  exact (C3_dev_server_port_and_exposure devServerContext _ eq_refl).
Defined.

(** C4. Every configuration that [resolve] returns has
    [emptyOutputBeforeBuild] true. *)
Theorem C4_output_is_emptied_before_build
    (ctx : InvocationContext) (cfg : UserConfig) :
  resolve ctx = Ok cfg -> emptyOutputBeforeBuild cfg = true.
Proof.
  intros H. apply resolve_inv in H as (wd & dir & _ & _ & ->). reflexivity.
Qed.

Lemma C4_scenario_witness :
  exists cfg,
    resolve scenarioContext = Ok cfg /\ emptyOutputBeforeBuild cfg = true.
Proof.
  eexists. split; [reflexivity |].
  exact (C4_output_is_emptied_before_build scenarioContext _ eq_refl).
Defined.

(** C5. Every configuration that [resolve] returns has exactly one
    plugin, the descriptor that [vue()] of '@vitejs/plugin-vue' makes (in
    the process that loads the file: with its working directory as root
    and its answer to NODE_ENV === 'production'). *)
Theorem C5_exactly_the_vue_plugin
    (ctx : InvocationContext) (cfg : UserConfig) :
  resolve ctx = Ok cfg ->
  length (plugins cfg) = 1
  /\ exists wd,
       processCwd ctx = Some wd
       /\ plugins cfg
          = [PluginFrom "@vitejs/plugin-vue" wd (nodeEnvIsProduction ctx)].
Proof.
  intros H. apply resolve_inv in H as (wd & dir & Hcwd & _ & ->).
  split; [reflexivity |]. now exists wd.
Qed.

Lemma C5_dev_server_witness :
  exists cfg,
    resolve devServerContext = Ok cfg
    /\ length (plugins cfg) = 1
    /\ exists wd,
         processCwd devServerContext = Some wd
         /\ plugins cfg
            = [PluginFrom "@vitejs/plugin-vue" wd
                 (nodeEnvIsProduction devServerContext)].
Proof.
  eexists. split; [reflexivity |].
  exact (C5_exactly_the_vue_plugin devServerContext _ eq_refl).
Defined.




(** C7 (as the code has it). Resolution preserves the prefix of the
    directory of the configuration file: when two configuration files lie
    in directories made of different prefixes followed by the same,
    non-empty, layout, and both working directories are readable, the two
    output directories are those prefixes followed by one common
    remainder (the layout's parent and the asset pieces). *)
Theorem C7_prefix_preserving_in_config_directory
    (ctx1 ctx2 : InvocationContext) (wd1 wd2 : string)
    (prefix1 prefix2 layout : list string) :
  processCwd ctx1 = Some wd1 ->
  processCwd ctx2 = Some wd2 ->
  layout <> [] ->
  forallb cleanSegment (prefix1 ++ layout) = true ->
  forallb cleanSegment (prefix2 ++ layout) = true ->
  __dirname ctx1 = ofSegments prefix1 ++ ofSegments layout ->
  __dirname ctx2 = ofSegments prefix2 ++ ofSegments layout ->
  exists cfg1 cfg2 remainder,
    resolve ctx1 = Ok cfg1 /\ resolve ctx2 = Ok cfg2
    /\ remainder = ofSegments (removelast layout ++ assetPieces)
    /\ outputDirectory cfg1 = ofSegments prefix1 ++ remainder
    /\ outputDirectory cfg2 = ofSegments prefix2 ++ remainder.
Proof.
  intros Hcwd1 Hcwd2 Hlayout Hclean1 Hclean2 Hdir1 Hdir2.
  assert (Hat : forall ctx wd pre,
             processCwd ctx = Some wd ->
             forallb cleanSegment (pre ++ layout) = true ->
             __dirname ctx = ofSegments pre ++ ofSegments layout ->
             exists cfg,
               resolve ctx = Ok cfg
               /\ outputDirectory cfg
                  = ofSegments pre
                    ++ ofSegments (removelast layout ++ assetPieces)).
  { intros ctx wd pre Hcwd Hclean Hdir.
    rewrite <- PathFacts.ofSegments_app in Hdir.
    assert (Habs : absolutePath (pre ++ layout) = ofSegments (pre ++ layout)).
    { destruct (pre ++ layout)%list eqn:E; [| reflexivity].
      apply app_eq_nil in E as [_ E]. contradiction. }
    rewrite <- Habs in Hdir.
    rewrite (resolve_clean_dirname ctx wd _ Hcwd Hclean Hdir).
    eexists. split; [reflexivity |]. unfold outputDirectory. simpl.
    rewrite (removelast_app _ Hlayout), <- app_assoc.
    apply PathFacts.ofSegments_app. }
  destruct (Hat ctx1 wd1 prefix1 Hcwd1 Hclean1 Hdir1) as (cfg1 & H1 & Hout1).
  destruct (Hat ctx2 wd2 prefix2 Hcwd2 Hclean2 Hdir2) as (cfg2 & H2 & Hout2).
  exists cfg1, cfg2, (ofSegments (removelast layout ++ assetPieces)).
  repeat split; assumption.
Qed.

Lemma C7_two_checkouts_witness :
  exists cfg1 cfg2,
    resolve (contextAt "/home/alice/project/aws-rdsportal-frontend"
               (Some "/home/alice/project/aws-rdsportal-frontend") [])
    = Ok cfg1
    /\ resolve (contextAt "/mnt/ci/42/project/aws-rdsportal-frontend"
                  (Some "/mnt/ci/42/project/aws-rdsportal-frontend") [])
       = Ok cfg2
    /\ outputDirectory cfg1
       = "/home/alice" ++ "/project/aws-rdsportal-backend/app/frontend"
    /\ outputDirectory cfg2
       = "/mnt/ci/42" ++ "/project/aws-rdsportal-backend/app/frontend".
Proof.
  destruct (C7_prefix_preserving_in_config_directory
              (contextAt "/home/alice/project/aws-rdsportal-frontend"
                 (Some "/home/alice/project/aws-rdsportal-frontend") [])
              (contextAt "/mnt/ci/42/project/aws-rdsportal-frontend"
                 (Some "/mnt/ci/42/project/aws-rdsportal-frontend") [])
              "/home/alice/project/aws-rdsportal-frontend"
              "/mnt/ci/42/project/aws-rdsportal-frontend"
              ["home"; "alice"] ["mnt"; "ci"; "42"]
              ["project"; "aws-rdsportal-frontend"]
              eq_refl eq_refl
              ltac:(discriminate) eq_refl eq_refl eq_refl eq_refl)
    as (cfg1 & cfg2 & remainder & H1 & H2 & Hrem & Hout1 & Hout2).
  exists cfg1, cfg2. rewrite Hrem in Hout1, Hout2.
  repeat split; assumption.
Defined.

(** C7 read with working directories fails: one configuration file loaded
    from two working directories that differ in their prefix only, /x and
    /y, yields one and the same output directory, which starts with
    neither prefix. *)
Lemma C7_working_directory_counterexample :
  processCwd underXContext = Some ("/x" ++ "/project/aws-rdsportal-frontend")
  /\ processCwd underYContext
     = Some ("/y" ++ "/project/aws-rdsportal-frontend")
  /\ exists cfg1 cfg2,
       resolve underXContext = Ok cfg1 /\ resolve underYContext = Ok cfg2
       /\ outputDirectory cfg1 = outputDirectory cfg2
       /\ forall remainder,
            ~ (outputDirectory cfg1 = "/x" ++ remainder
               /\ outputDirectory cfg2 = "/y" ++ remainder).
Proof.
  split; [reflexivity |]. split; [reflexivity |].
  eexists. eexists. split; [reflexivity |]. split; [reflexivity |].
  split; [reflexivity |].
  intros remainder [Hx _]. vm_compute in Hx. discriminate Hx.
Qed.

(** C8 (as the code has it). When the configuration file lies in a
    normalised directory parent/name whose name is not
    aws-rdsportal-backend, and the working directory is readable, the
    output directory is parent/aws-rdsportal-backend/app/frontend: inside
    the sibling parent/aws-rdsportal-backend, and not under parent/name. *)
Theorem C8_output_outside_frontend_inside_sibling
    (ctx : InvocationContext) (wd : string)
    (parent : list string) (name : string) :
  processCwd ctx = Some wd ->
  forallb cleanSegment (parent ++ [name]) = true ->
  name <> "aws-rdsportal-backend" ->
  __dirname ctx = ofSegments (parent ++ [name]) ->
  exists cfg,
    resolve ctx = Ok cfg
    /\ outputDirectory cfg
       = ofSegments parent ++ "/aws-rdsportal-backend/app/frontend"
    /\ isUnder (outputDirectory cfg)
         (ofSegments parent ++ "/aws-rdsportal-backend") = true
    /\ isUnder (outputDirectory cfg) (__dirname ctx) = false.
Proof.
  intros Hcwd Hclean Hname Hdir.
  assert (Habs : absolutePath (parent ++ [name]) = ofSegments (parent ++ [name]))
    by (destruct parent; reflexivity).
  pose proof Hdir as Hdir'. rewrite <- Habs in Hdir'.
  rewrite (resolve_clean_dirname ctx wd _ Hcwd Hclean Hdir').
  eexists. split; [reflexivity |]. unfold outputDirectory. simpl outDir.
  rewrite removelast_last.
  assert (Hparent : forallb cleanSegment parent = true).
  { rewrite forallb_app in Hclean. now apply andb_true_iff in Hclean. }
  assert (Hout : forallb cleanSegment (parent ++ assetPieces) = true).
  { rewrite forallb_app, Hparent. reflexivity. }
  assert (Hsib : forallb cleanSegment (parent ++ ["aws-rdsportal-backend"])
                 = true).
  { rewrite forallb_app, Hparent. reflexivity. }
  split; [apply PathFacts.ofSegments_app |].
  unfold isUnder. rewrite (PathFacts.directoryNames_ofSegments _ Hout).
  split.
  - change (ofSegments parent ++ "/aws-rdsportal-backend")
      with (ofSegments parent ++ ofSegments ["aws-rdsportal-backend"]).
    rewrite <- PathFacts.ofSegments_app.
    rewrite (PathFacts.directoryNames_ofSegments _ Hsib).
    rewrite PathFacts.isPrefixOf_app. reflexivity.
  - rewrite Hdir, (PathFacts.directoryNames_ofSegments _ Hclean).
    rewrite PathFacts.isPrefixOf_app. simpl.
    apply String.eqb_neq in Hname. now rewrite Hname.
Qed.

Lemma C8_scenario_witness :
  exists cfg,
    resolve scenarioContext = Ok cfg
    /\ outputDirectory cfg
       = "/home/user/project" ++ "/aws-rdsportal-backend/app/frontend"
    /\ isUnder (outputDirectory cfg)
         ("/home/user/project" ++ "/aws-rdsportal-backend") = true
    /\ isUnder (outputDirectory cfg) (__dirname scenarioContext) = false.
Proof.
  exact (C8_output_outside_frontend_inside_sibling scenarioContext
           scenarioDir ["home"; "user"; "project"] "aws-rdsportal-frontend"
           eq_refl eq_refl ltac:(discriminate) eq_refl).
Defined.

(** C8 as stated fails: for a front-end project kept in the root
    directory, and for one kept in a directory named
    aws-rdsportal-backend, the output directory lies under the front-end
    project's own directory. *)
Lemma C8_inside_frontend_counterexample :
  (exists cfg,
     resolve rootContext = Ok cfg
     /\ outputDirectory cfg = "/aws-rdsportal-backend/app/frontend"
     /\ isUnder (outputDirectory cfg) (__dirname rootContext) = true)
  /\ (exists cfg,
        resolve backendNamedContext = Ok cfg
        /\ outputDirectory cfg = "/srv/aws-rdsportal-backend/app/frontend"
        /\ isUnder (outputDirectory cfg) (__dirname backendNamedContext)
           = true).
Proof.
  split; eexists; (split; [reflexivity |]); split; reflexivity.
Qed.

(** C9 (as the code has it). The build and server options of the
    resolved configuration, [outputDirectory] included, depend on the
    (absolute) directory of the configuration file only: two loads of the
    same file from any two readable working directories both return, with
    the same build and server options, whatever command, mode,
    environment and disk. *)
Theorem C9_build_and_server_independent_of_cwd
    (ctx1 ctx2 : InvocationContext) (wd1 wd2 : string) :
  __dirname ctx1 = __dirname ctx2 ->
  path.isAbsolute (__dirname ctx1) = true ->
  processCwd ctx1 = Some wd1 ->
  processCwd ctx2 = Some wd2 ->
  exists cfg1 cfg2,
    resolve ctx1 = Ok cfg1 /\ resolve ctx2 = Ok cfg2
    /\ build cfg1 = build cfg2
    /\ server cfg1 = server cfg2
    /\ outputDirectory cfg1 = outputDirectory cfg2.
Proof.
  intros Hdir Habs Hcwd1 Hcwd2.
  rewrite (resolve_absolute_dirname ctx1 wd1 Hcwd1 Habs).
  rewrite Hdir in Habs.
  rewrite (resolve_absolute_dirname ctx2 wd2 Hcwd2 Habs).
  eexists. eexists. split; [reflexivity |]. split; [reflexivity |].
  unfold outputDirectory. simpl. rewrite Hdir. repeat split.
Qed.

Lemma C9_other_working_directory_witness :
  processCwd scenarioContext <> processCwd elsewhereContext
  /\ exists cfg1 cfg2,
       resolve scenarioContext = Ok cfg1
       /\ resolve elsewhereContext = Ok cfg2
       /\ build cfg1 = build cfg2
       /\ server cfg1 = server cfg2
       /\ outputDirectory cfg1 = outputDirectory cfg2.
Proof.
  split; [discriminate |].
  exact (C9_build_and_server_independent_of_cwd
           scenarioContext elsewhereContext scenarioDir "/tmp"
           eq_refl eq_refl eq_refl eq_refl).
Defined.

(** C9 as stated fails: the scenario's configuration file loaded from its
    own directory and from /tmp gives two configurations that differ (in
    the root that the plugin took from the working directory), and loaded
    by a process whose working directory cannot be read it gives none. *)
Lemma C9_working_directory_counterexample :
  __dirname scenarioContext = __dirname elsewhereContext
  /\ __dirname scenarioContext = __dirname unreadableCwdContext
  /\ (exists cfg1 cfg2,
        resolve scenarioContext = Ok cfg1
        /\ resolve elsewhereContext = Ok cfg2
        /\ plugins cfg1 = [PluginFrom "@vitejs/plugin-vue" scenarioDir true]
        /\ plugins cfg2 = [PluginFrom "@vitejs/plugin-vue" "/tmp" true]
        /\ cfg1 <> cfg2)
  /\ resolve unreadableCwdContext = Throw ENOENT_uv_cwd
  /\ resolve scenarioContext <> resolve unreadableCwdContext.
Proof.
  split; [reflexivity |]. split; [reflexivity |]. split.
  - eexists. eexists. split; [reflexivity |]. split; [reflexivity |].
    split; [reflexivity |]. split; [reflexivity | discriminate].
  - split; [reflexivity | discriminate].
Qed.

(** C10 (as the code has it). [path.resolve] applied to the absolute
    directory of the configuration file and the fixed relative part
    returns an absolute path and throws nothing, the same for every
    working directory, readable or not, and without looking at the disk;
    and when the working directory is readable, [resolve] returns a
    configuration, with that absolute output directory, and throws
    nothing. *)
Theorem C10_total_with_readable_cwd
    (ctx : InvocationContext) (wd : string) :
  path.isAbsolute (__dirname ctx) = true ->
  processCwd ctx = Some wd ->
  (exists out,
     path.isAbsolute out = true
     /\ (forall cwd,
           path.resolve cwd [__dirname ctx; relativeOutDir] = Ok out)
     /\ resolve ctx = Ok (configWith (vueDescriptor ctx wd) out))
  /\ forall e, resolve ctx <> Throw e.
Proof.
  intros H Hcwd. rewrite (resolve_absolute_dirname ctx wd Hcwd H). split.
  - eexists. split; [| split; [| reflexivity]].
    + reflexivity.
    + intros cwd. exact (PathFacts.resolve_absolute cwd _ H).
  - discriminate.
Qed.

Lemma C10_scenario_witness :
  (exists out,
     path.isAbsolute out = true
     /\ (forall cwd,
           path.resolve cwd [__dirname elsewhereContext; relativeOutDir]
           = Ok out)
     /\ resolve elsewhereContext
        = Ok (configWith (vueDescriptor elsewhereContext "/tmp") out))
  /\ forall e, resolve elsewhereContext <> Throw e.
Proof.
  exact (C10_total_with_readable_cwd elsewhereContext "/tmp"
           eq_refl eq_refl).
Defined.

(** C10 as stated fails: loaded by a process whose working directory
    cannot be read, the scenario's configuration file throws (in [vue()]),
    although its directory is absolute and [path.resolve] on its own
    returns. *)
Lemma C10_unreadable_cwd_counterexample :
  path.isAbsolute (__dirname unreadableCwdContext) = true
  /\ processCwd unreadableCwdContext = None
  /\ path.resolve None [__dirname unreadableCwdContext; relativeOutDir]
     = Ok "/home/user/project/aws-rdsportal-backend/app/frontend"
  /\ vue unreadableCwdContext = Throw ENOENT_uv_cwd
  /\ resolve unreadableCwdContext = Throw ENOENT_uv_cwd.
Proof.
  repeat split.
Qed.

(** ** Further properties of the output directory *)

(** X1. For every normalised absolute directory of the configuration
    file, the root included, and a readable working directory, the
    configuration asks for the output directory to be emptied, and the
    directory of the configuration file is neither that output directory
    nor anywhere below it. *)
Theorem X1_frontend_not_inside_output
    (ctx : InvocationContext) (wd : string) (segs : list string) :
  processCwd ctx = Some wd ->
  forallb cleanSegment segs = true ->
  __dirname ctx = absolutePath segs ->
  exists cfg,
    resolve ctx = Ok cfg
    /\ emptyOutputBeforeBuild cfg = true
    /\ isUnder (__dirname ctx) (outputDirectory cfg) = false
    /\ outputDirectory cfg <> __dirname ctx.
Proof.
  intros Hcwd Hclean Hdir.
  rewrite (resolve_clean_dirname ctx wd _ Hcwd Hclean Hdir).
  eexists. split; [reflexivity |]. split; [reflexivity |].
  unfold outputDirectory. simpl outDir.
  assert (Hnot : isUnder (__dirname ctx)
                   (ofSegments (removelast segs ++ assetPieces)) = false).
  { unfold isUnder.
    destruct (names_with_assets_clean _ (OutDirFacts.removelast_clean _ Hclean))
      as [Hout _].
    rewrite (PathFacts.directoryNames_ofSegments _ Hout).
    rewrite Hdir, (OutDirFacts.directoryNames_absolutePath _ Hclean).
    destruct (isPrefixOf _ _) eqn:E; [| reflexivity].
    apply OutDirFacts.isPrefixOf_length in E.
    rewrite length_app in E. simpl in E.
    pose proof (OutDirFacts.removelast_length_succ segs). lia. }
  split; [exact Hnot |].
  intros Heq. rewrite Heq in Hnot. unfold isUnder in Hnot.
  now rewrite OutDirFacts.isPrefixOf_refl in Hnot.
Qed.

Lemma X1_scenario_witness :
  exists cfg,
    resolve scenarioContext = Ok cfg
    /\ emptyOutputBeforeBuild cfg = true
    /\ isUnder (__dirname scenarioContext) (outputDirectory cfg) = false
    /\ outputDirectory cfg <> __dirname scenarioContext.
Proof.
  exact (X1_frontend_not_inside_output scenarioContext scenarioDir
           ["home"; "user"; "project"; "aws-rdsportal-frontend"]
           eq_refl eq_refl eq_refl).
Defined.

(** X2. However the absolute directory of the configuration file is
    spelled (doubled separators, ["."] and [".."] pieces, a trailing
    separator), with a readable working directory the output directory is
    a normalised absolute path: a sequence of directory names, none of
    them empty, ["."] or [".."], that ends with
    aws-rdsportal-backend/app/frontend. *)
Theorem X2_output_is_normalised
    (ctx : InvocationContext) (wd : string) :
  processCwd ctx = Some wd ->
  path.isAbsolute (__dirname ctx) = true ->
  exists cfg names,
    resolve ctx = Ok cfg
    /\ forallb cleanSegment names = true
    /\ outputDirectory cfg
       = ofSegments names ++ "/aws-rdsportal-backend/app/frontend"
    /\ directoryNames (outputDirectory cfg) = (names ++ assetPieces)%list.
Proof.
  intros Hcwd H.
  destruct (resolve_names_dirname ctx wd Hcwd H) as (names & Hclean & ->).
  eexists. exists names. split; [reflexivity |]. split; [exact Hclean |].
  unfold outputDirectory. simpl outDir. split.
  - apply PathFacts.ofSegments_app.
  - apply PathFacts.directoryNames_ofSegments.
    now apply names_with_assets_clean.
Qed.

Lemma X2_unnormalised_witness :
  exists cfg,
    resolve unnormalisedContext = Ok cfg
    /\ outputDirectory cfg
       = "/home/user/project/aws-rdsportal-backend/app/frontend"
    /\ exists names,
         forallb cleanSegment names = true
         /\ directoryNames (outputDirectory cfg) = (names ++ assetPieces)%list.
Proof.
  destruct (X2_output_is_normalised unnormalisedContext "/tmp"
              eq_refl eq_refl)
    as (cfg & names & Hcfg & Hclean & _ & Hnames).
  exists cfg. split; [exact Hcfg |]. split.
  - injection Hcfg as <-. reflexivity.
  - exists names. split; assumption.
Defined.

(** X3. The output directory is final: resolving it again, after any
    other arguments (a project root, say) and from any working directory,
    readable or not, returns it unchanged, and so does normalising it. *)
Theorem X3_output_resolves_to_itself
    (ctx : InvocationContext) (cfg : UserConfig)
    (cwd : option string) (bases : list string) :
  path.isAbsolute (__dirname ctx) = true ->
  resolve ctx = Ok cfg ->
  path.resolve cwd (bases ++ [outputDirectory cfg]) = Ok (outputDirectory cfg)
  /\ path.normalize (outputDirectory cfg) = outputDirectory cfg.
Proof.
  intros H Hcfg.
  destruct (resolve_inv ctx cfg Hcfg) as (wd & _ & Hcwd & _ & _).
  destruct (resolve_names_dirname ctx wd Hcwd H) as (names & Hclean & Hres).
  rewrite Hres in Hcfg. injection Hcfg as <-.
  unfold outputDirectory. simpl outDir.
  destruct (names_with_assets_clean _ Hclean) as [Hall Hne]. split.
  - now apply OutDirFacts.resolve_normalised_last.
  - now apply OutDirFacts.normalize_normalised.
Qed.

Lemma X3_project_root_witness :
  exists cfg,
    resolve unnormalisedContext = Ok cfg
    /\ path.resolve None ["/srv/other/root"; "sub"; outputDirectory cfg]
       = Ok (outputDirectory cfg)
    /\ path.normalize (outputDirectory cfg) = outputDirectory cfg.
Proof.
  eexists. split; [reflexivity |].
  exact (X3_output_resolves_to_itself unnormalisedContext _ None
           ["/srv/other/root"; "sub"] eq_refl eq_refl).
Defined.

(** X5. Two front-end projects in normalised absolute directories, loaded
    with readable working directories, build into the same output
    directory exactly when they have the same parent directory: the name
    of the front-end directory itself plays no part. *)
Theorem X5_same_output_iff_same_parent
    (ctx1 ctx2 : InvocationContext) (wd1 wd2 : string)
    (segs1 segs2 : list string) :
  processCwd ctx1 = Some wd1 ->
  processCwd ctx2 = Some wd2 ->
  forallb cleanSegment segs1 = true ->
  forallb cleanSegment segs2 = true ->
  __dirname ctx1 = absolutePath segs1 ->
  __dirname ctx2 = absolutePath segs2 ->
  exists cfg1 cfg2,
    resolve ctx1 = Ok cfg1 /\ resolve ctx2 = Ok cfg2
    /\ (outputDirectory cfg1 = outputDirectory cfg2
        <-> removelast segs1 = removelast segs2).
Proof.
  intros Hcwd1 Hcwd2 Hclean1 Hclean2 Hdir1 Hdir2.
  rewrite (resolve_clean_dirname ctx1 wd1 _ Hcwd1 Hclean1 Hdir1).
  rewrite (resolve_clean_dirname ctx2 wd2 _ Hcwd2 Hclean2 Hdir2).
  eexists. eexists. split; [reflexivity |]. split; [reflexivity |].
  unfold outputDirectory. simpl outDir.
  destruct (names_with_assets_clean _ (OutDirFacts.removelast_clean _ Hclean1))
    as [Hout1 _].
  destruct (names_with_assets_clean _ (OutDirFacts.removelast_clean _ Hclean2))
    as [Hout2 _].
  split.
  - intros Heq. apply (f_equal directoryNames) in Heq.
    rewrite (PathFacts.directoryNames_ofSegments _ Hout1) in Heq.
    rewrite (PathFacts.directoryNames_ofSegments _ Hout2) in Heq.
    exact (app_inv_tail _ _ _ Heq).
  - intros ->. reflexivity.
Qed.

Lemma X5_sibling_frontends_witness :
  __dirname scenarioContext <> __dirname siblingFrontendContext
  /\ exists cfg1 cfg2,
       resolve scenarioContext = Ok cfg1
       /\ resolve siblingFrontendContext = Ok cfg2
       /\ outputDirectory cfg1 = outputDirectory cfg2.
Proof.
  split; [discriminate |].
  destruct (X5_same_output_iff_same_parent
              scenarioContext siblingFrontendContext
              scenarioDir "/home/user/project/admin-frontend"
              ["home"; "user"; "project"; "aws-rdsportal-frontend"]
              ["home"; "user"; "project"; "admin-frontend"]
              eq_refl eq_refl eq_refl eq_refl eq_refl eq_refl)
    as (cfg1 & cfg2 & H1 & H2 & _ & Hsame).
  exists cfg1, cfg2. split; [exact H1 |]. split; [exact H2 |].
  exact (Hsame eq_refl).
Defined.
